(** * todo-service: a shallow embedding of [app/main.py]

    The service is a Flask application with five CRUD handlers over one
    MongoDB collection ([db.todos]) and a start-up routine [init_db] that
    pings the database with a bounded number of retries.

    Modelling choices.
    - Python values that come from [request.json] and that are stored in
      documents are JSON values ([json]).  JSON numbers are restricted to
      integers; Python [None] is [JNull].
    - A Python [dict] (and a BSON document) keeps insertion order, so it is
      an association list with unique keys ([dict]).
    - [bson.ObjectId] and the PyMongo driver are libraries, not code of the
      application: the identifier type, its parser and its string form are
      an interface ([ObjectIdOps]); the collection is a finite map from
      [_id] to the remaining fields; every driver call takes a [fault]
      argument that says whether the call raises.
    - A handler returns an [outcome]: the pair [jsonify(..), status] that
      the code returns, or the exception that leaves the handler. *)

From Stdlib Require Import ZArith String Ascii List Lia.
From stdpp Require Import base option list strings gmap fin_maps.
Import ListNotations.

Open Scope string_scope.

(** ** JSON values and Python dictionaries *)

#[warnings="-register-all"]
Inductive json : Type :=
| JNull
| JBool (b : bool)
| JInt (z : Z)
| JStr (s : string)
| JList (l : list json)
| JDict (d : list (string * json)).

Abbreviation dict := (list (string * json)).

(** Structural equality on JSON values (the comparison the store makes
    when it decides whether a [$set] changes a field). *)
Fixpoint json_eqb (x y : json) {struct x} : bool :=
  match x, y with
  | JNull, JNull => true
  | JBool a, JBool b => Bool.eqb a b
  | JInt a, JInt b => Z.eqb a b
  | JStr a, JStr b => String.eqb a b
  | JList l, JList l' =>
      (fix go (l l' : list json) {struct l} : bool :=
         match l, l' with
         | [], [] => true
         | a :: l, b :: l' => json_eqb a b && go l l'
         | _, _ => false
         end) l l'
  | JDict d, JDict d' =>
      (fix go (d d' : list (string * json)) {struct d} : bool :=
         match d, d' with
         | [], [] => true
         | (k, a) :: d, (k', b) :: d' =>
             String.eqb k k' && json_eqb a b && go d d'
         | _, _ => false
         end) d d'
  | _, _ => false
  end.

Fixpoint dict_eqb (d d' : dict) : bool :=
  match d, d' with
  | [], [] => true
  | (k, a) :: d, (k', b) :: d' => String.eqb k k' && json_eqb a b && dict_eqb d d'
  | _, _ => false
  end.

(** [k in d] for a dict. *)
Fixpoint dict_mem (k : string) (d : dict) : bool :=
  match d with
  | [] => false
  | (k', _) :: d => String.eqb k' k || dict_mem k d
  end.

(** [d.get(k)]: [None] when the key is missing. *)
Fixpoint dict_get (k : string) (d : dict) : option json :=
  match d with
  | [] => None
  | (k', v) :: d => if String.eqb k' k then Some v else dict_get k d
  end.

(** [d[k] = v]: an existing key keeps its position, a new key goes last. *)
Fixpoint dict_set (k : string) (v : json) (d : dict) : dict :=
  match d with
  | [] => [(k, v)]
  | (k', v') :: d => if String.eqb k' k then (k', v) :: d else (k', v') :: dict_set k v d
  end.

Definition dict_keys (d : dict) : list string := map fst d.

(** ** Python operators used by the handlers *)

Inductive exn : Type :=
| TypeError (msg : string)
| KeyError (msg : string)
| InvalidId (msg : string)
| StoreError (msg : string).

(** [str(e)] *)
Definition str_exn (e : exn) : string :=
  match e with
  | TypeError m | KeyError m | InvalidId m | StoreError m => m
  end.

(** Truth value of a Python object, as [not data] tests it. *)
Definition truthy (v : json) : bool :=
  match v with
  | JNull => false
  | JBool b => b
  | JInt z => negb (Z.eqb z 0)
  | JStr s => match s with EmptyString => false | _ => true end
  | JList l => match l with [] => false | _ => true end
  | JDict d => match d with [] => false | _ => true end
  end.

Definition is_str (k : string) (v : json) : bool :=
  match v with JStr s => String.eqb s k | _ => false end.

(** Substring test, [k in s] for two strings. *)
Fixpoint str_contains (k s : string) : bool :=
  String.prefix k s ||
  match s with
  | EmptyString => false
  | String _ s' => str_contains k s'
  end.

Definition type_name (v : json) : string :=
  match v with
  | JNull => "NoneType"
  | JBool _ => "bool"
  | JInt _ => "int"
  | JStr _ => "str"
  | JList _ => "list"
  | JDict _ => "dict"
  end.

(** [k in data] where [k] is a string literal: key membership for a dict,
    element membership for a list, substring for a string, and a
    [TypeError] for the other types. *)
Definition py_in (k : string) (data : json) : exn + bool :=
  match data with
  | JDict d => inr (dict_mem k d)
  | JList l => inr (existsb (is_str k) l)
  | JStr s => inr (str_contains k s)
  | _ => inl (TypeError ("argument of type '" ++ type_name data ++ "' is not iterable"))
  end.

(** [data[k]] where [k] is a string literal. *)
Definition py_getitem (data : json) (k : string) : exn + json :=
  match data with
  | JDict d =>
      match dict_get k d with
      | Some v => inr v
      | None => inl (KeyError ("'" ++ k ++ "'"))
      end
  | JList _ => inl (TypeError "list indices must be integers or slices, not str")
  | JStr _ => inl (TypeError "string indices must be integers")
  | _ => inl (TypeError ("'" ++ type_name data ++ "' object is not subscriptable"))
  end.

(** Exceptions are threaded through the statements that can raise. *)
Definition bind_exn {A B : Type} (m : exn + A) (k : A -> exn + B) : exn + B :=
  match m with
  | inl e => inl e
  | inr a => k a
  end.

Notation "'let*' x ':=' m 'in' k" := (bind_exn m (fun x => k))
  (at level 10, x pattern, m at level 100, k at level 200).

(** ** HTTP side: requests and what a handler produces *)

(** [body = None] is a request without a body; [request.json] is then
    [None], the case that the handlers test with [not data]; otherwise it
    is the parsed JSON value. *)
Record request : Type := { body : option json }.

Definition request_json (r : request) : json :=
  match body r with
  | None => JNull
  | Some v => v
  end.

(** [Response b s] is [return jsonify(b), s] (status 200 when the code
    gives none); [Unhandled e] is an exception raised outside the handler's
    [try], which leaves the handler and is left to Flask. *)
Inductive outcome : Type :=
| Response (payload : json) (status : Z)
| Unhandled (e : exn).

Definition status_of (o : outcome) : option Z :=
  match o with
  | Response _ s => Some s
  | Unhandled _ => None
  end.

Definition error_body (msg : string) : json := JDict [("error", JStr msg)].
Definition message_body (msg : string) : json := JDict [("message", JStr msg)].

Definition dquote : string := String (ascii_of_nat 34) EmptyString.

(** The text [Missing "task" field]. *)
Definition missing_task_msg : string :=
  "Missing " ++ dquote ++ "task" ++ dquote ++ " field".

(** ** The libraries: [bson.ObjectId] and the PyMongo collection *)

(** [ObjectId_of_str s] is [ObjectId(s)]: [inl msg] when the constructor
    raises [InvalidId] with message [msg].  [str_of_ObjectId o] is
    [str(o)]. *)
Class ObjectIdOps (ObjectId : Type) : Type := {
  ObjectId_of_str : string -> string + ObjectId;
  str_of_ObjectId : ObjectId -> string
}.

Section Service.
Context {ObjectId : Type} `{Countable ObjectId} `{!ObjectIdOps ObjectId}.

(** The collection [db.todos]: the server keeps [_id] unique, so the
    collection is a finite map from [_id] to the other fields of the
    document. *)
Abbreviation collection := (gmap ObjectId dict).

Record InsertOneResult : Type := { inserted_id : ObjectId }.
Record UpdateResult : Type := { matched_count : Z; modified_count : Z }.
Record DeleteResult : Type := { deleted_count : Z }.

(** [ObjectId(todo_id)] as a statement that can raise. *)
Definition new_ObjectId (s : string) : exn + ObjectId :=
  match ObjectId_of_str s with
  | inl msg => inl (InvalidId msg)
  | inr o => inr o
  end.

(** A driver call that fails raises before it has any effect. *)
Definition driver_call {A : Type} (fault : option string) (run : exn + A) : exn + A :=
  match fault with
  | Some msg => inl (StoreError msg)
  | None => run
  end.

(** [todos.insert_one(document)] for a document without [_id]: the
    driver generates the identifier [fresh]; the server refuses an
    identifier that is already in the collection. *)
Definition insert_one (fault : option string) (fresh : ObjectId)
    (document : dict) (c : collection) : exn + (InsertOneResult * collection) :=
  driver_call fault
    match c !! fresh with
    | Some _ => inl (StoreError "E11000 duplicate key error collection: todo_db.todos")
    | None => inr ({| inserted_id := fresh |}, <[fresh := document]> c)
    end.

(** [list(todos.find({}))]: a document is its [_id] and its other fields. *)
Definition find_all (fault : option string) (c : collection)
    : exn + list (ObjectId * dict) :=
  driver_call fault (inr (map_to_list c)).

(** [todos.find_one({'_id': oid})] *)
Definition find_one (fault : option string) (oid : ObjectId) (c : collection)
    : exn + option (ObjectId * dict) :=
  driver_call fault (inr (match c !! oid with
                          | Some fields => Some (oid, fields)
                          | None => None
                          end)).

(** The effect of [{'$set': update_fields}] on the fields of a document. *)
Definition apply_set (update_fields fields : dict) : dict :=
  fold_left (fun acc kv => dict_set (fst kv) (snd kv) acc) update_fields fields.

(** [todos.update_one({'_id': oid}, {'$set': update_fields})]: a document
    whose fields already have the given values is matched and not
    modified. *)
Definition update_one (fault : option string) (oid : ObjectId)
    (update_fields : dict) (c : collection) : exn + (UpdateResult * collection) :=
  driver_call fault
    match c !! oid with
    | None => inr ({| matched_count := 0; modified_count := 0 |}, c)
    | Some fields =>
        let fields' := apply_set update_fields fields in
        if dict_eqb fields' fields
        then inr ({| matched_count := 1; modified_count := 0 |}, c)
        else inr ({| matched_count := 1; modified_count := 1 |}, <[oid := fields']> c)
    end.

(** [todos.delete_one({'_id': oid})] *)
Definition delete_one (fault : option string) (oid : ObjectId) (c : collection)
    : exn + (DeleteResult * collection) :=
  driver_call fault
    match c !! oid with
    | None => inr ({| deleted_count := 0 |}, c)
    | Some _ => inr ({| deleted_count := 1 |}, delete oid c)
    end.

(** ** The handlers *)

(** [create_todo]: POST /todos *)
Definition create_todo (fault : option string) (fresh : ObjectId)
    (req : request) (db : collection) : outcome * collection :=
  let data := request_json req in
  if negb (truthy data) then (Response (error_body missing_task_msg) 400, db) else
  match py_in "task" data with
  | inl e => (Unhandled e, db)
  | inr false => (Response (error_body missing_task_msg) 400, db)
  | inr true =>
      match py_getitem data "task" with
      | inl e => (Unhandled e, db)
      | inr task =>
          match insert_one fault fresh [("task", task); ("completed", JBool false)] db with
          | inr (result, db') =>
              (Response (JDict [("id", JStr (str_of_ObjectId (inserted_id result)));
                                ("task", task);
                                ("completed", JBool false)]) 201, db')
          | inl e => (Response (error_body (str_exn e)) 500, db)
          end
      end
  end.

(** [todo['id'] = str(todo['_id'])] followed by [del todo['_id']]: what is
    left is the other fields with the key [id] set. *)
Definition remap_id (todo : ObjectId * dict) : dict :=
  dict_set "id" (JStr (str_of_ObjectId (fst todo))) (snd todo).

(** [get_all_todos]: GET /todos *)
Definition get_all_todos (fault : option string) (db : collection)
    : outcome * collection :=
  match find_all fault db with
  | inr all_todos => (Response (JList (map (fun todo => JDict (remap_id todo)) all_todos)) 200, db)
  | inl e => (Response (error_body (str_exn e)) 500, db)
  end.

(** [get_todo]: GET /todos/<todo_id>.  A document that was found is a dict
    with the key [_id], hence true in [if todo]. *)
Definition get_todo (fault : option string) (todo_id : string) (db : collection)
    : outcome * collection :=
  match (let* oid := new_ObjectId todo_id in find_one fault oid db) with
  | inr (Some todo) => (Response (JDict (remap_id todo)) 200, db)
  | inr None => (Response (error_body "To-do item not found") 404, db)
  | inl e => (Response (error_body (str_exn e)) 500, db)
  end.

(** The dict [update_fields] built from the recognised keys of the body. *)
Definition collect_update_fields (data : json) : exn + dict :=
  let* has_task := py_in "task" data in
  let* fields1 :=
    (if has_task : bool
     then let* v := py_getitem data "task" in inr (dict_set "task" v [])
     else inr []) in
  let* has_completed := py_in "completed" data in
  if has_completed : bool
  then let* v := py_getitem data "completed" in inr (dict_set "completed" v fields1)
  else inr fields1.

(** [update_todo]: PUT /todos/<todo_id> *)
Definition update_todo (fault : option string) (todo_id : string)
    (req : request) (db : collection) : outcome * collection :=
  let data := request_json req in
  if negb (truthy data) then (Response (error_body "No data provided for update") 400, db) else
  match collect_update_fields data with
  | inl e => (Unhandled e, db)
  | inr update_fields =>
      if negb (truthy (JDict update_fields))
      then (Response (error_body "No valid fields to update") 400, db)
      else
        match (let* oid := new_ObjectId todo_id in update_one fault oid update_fields db) with
        | inr (result, db') =>
            if Z.eqb (modified_count result) 0
            then (Response (error_body "To-do item not found or no changes made") 404, db')
            else (Response (message_body "To-do item updated successfully") 200, db')
        | inl e => (Response (error_body (str_exn e)) 500, db)
        end
  end.

(** [delete_todo]: DELETE /todos/<todo_id> *)
Definition delete_todo (fault : option string) (todo_id : string) (db : collection)
    : outcome * collection :=
  match (let* oid := new_ObjectId todo_id in delete_one fault oid db) with
  | inr (result, db') =>
      if Z.eqb (deleted_count result) 0
      then (Response (error_body "To-do item not found") 404, db')
      else (Response (message_body "To-do item deleted successfully") 200, db')
  | inl e => (Response (error_body (str_exn e)) 500, db)
  end.

(** [health_check]: GET /healthz *)
Definition health_check : outcome := Response (JDict [("status", JStr "ok")]) 200.

(** ** Requests in sequence, and the shape of the stored documents *)

(** One request to the service together with what the driver does while
    it is served. *)
Inductive call : Type :=
| Create (fault : option string) (fresh : ObjectId) (req : request)
| ListAll (fault : option string)
| Get (fault : option string) (todo_id : string)
| Update (fault : option string) (todo_id : string) (req : request)
| Delete (fault : option string) (todo_id : string).

Definition handle (c : call) (db : collection) : outcome * collection :=
  match c with
  | Create fault fresh req => create_todo fault fresh req db
  | ListAll fault => get_all_todos fault db
  | Get fault todo_id => get_todo fault todo_id db
  | Update fault todo_id req => update_todo fault todo_id req db
  | Delete fault todo_id => delete_todo fault todo_id db
  end.

(** The responses to a sequence of requests and the collection after it. *)
Fixpoint run (calls : list call) (db : collection) : list outcome * collection :=
  match calls with
  | [] => ([], db)
  | c :: calls =>
      let r := handle c db in
      let rs := run calls (snd r) in
      (fst r :: fst rs, snd rs)
  end.

Definition is_create (c : call) : bool :=
  match c with Create _ _ _ => true | _ => false end.

Definition created (o : outcome) : bool :=
  match o with Response _ 201 => true | _ => false end.

(** A document as [create_todo] writes it: the keys [task] and
    [completed], in this order, and nothing else. *)
Definition todo_shaped (fields : dict) : Prop :=
  dict_keys fields = ["task"; "completed"].

Definition well_formed (db : collection) : Prop :=
  map_Forall (fun _ fields => todo_shaped fields) db.

(** A record as the service returns it for the document [todo]. *)
Definition external_record (todo : ObjectId * dict) (r : json) : Prop :=
  exists task completed,
    snd todo = [("task", task); ("completed", completed)] /\
    r = JDict [("task", task); ("completed", completed);
               ("id", JStr (str_of_ObjectId (fst todo)))].

End Service.

(** The recognised keys of a JSON object with their values. *)
Definition recognised_fields (d : dict) : dict :=
  (match dict_get "task" d with Some v => [("task", v)] | None => [] end ++
   match dict_get "completed" d with Some v => [("completed", v)] | None => [] end)%list.

(** ** Start-up: [init_db] *)

(** What [init_db] does to the outside world, in order: a connection
    attempt ([MongoClient(MONGO_URI)] followed by the ping) that succeeded
    or raised, a line printed, a call [time.sleep(secs)]. *)
Inductive event : Type :=
| Ping (ok : bool)
| Print (line : string)
| Sleep (secs : Z).

Definition connected_msg : string := "✅ Connected to MongoDB.".
Definition not_ready_msg (e : string) : string := "⚠️ DB not ready yet: " ++ e.
Definition gave_up_msg : string :=
  "❌ Could not connect to database after several retries.".

Section InitDb.
Context {MongoClient : Type}.

(** [attempt n] is the result of the [n]-th connection attempt (from 0):
    the client, or the text of the exception raised. *)
Variable attempt : nat -> string + MongoClient.

(** The [while retries > 0] loop, entered with [retries] left after [n]
    attempts: what the function returns or raises, and the events from
    here on, in order.  When [retries] reaches 0 the loop is left and
    the function raises. *)
Fixpoint init_db_loop (retries n : nat) : (string + MongoClient) * list event :=
  match retries with
  | O => (inl gave_up_msg, [])
  | S retries' =>
      match attempt n with
      | inr client => (inr client, [Ping true; Print connected_msg])
      | inl e =>
          let rest := init_db_loop retries' (S n) in
          (fst rest, Ping false :: Print (not_ready_msg e) :: Sleep 5 :: snd rest)
      end
  end.

(** [init_db()]: the client ([inr]) or the message of the exception
    raised ([inl]), and the events in the order they happened. *)
Definition init_db : (string + MongoClient) * list event := init_db_loop 10 0.

(** The [n]-th connection attempt raises. *)
Definition fails (n : nat) : Prop := exists e, attempt n = inl e.

End InitDb.

(** Number of connection attempts in a trace. *)
Fixpoint attempts (t : list event) : nat :=
  match t with
  | [] => O
  | Ping _ :: t => S (attempts t)
  | _ :: t => attempts t
  end.

(** Number of failed connection attempts in a trace. *)
Fixpoint failures (t : list event) : nat :=
  match t with
  | [] => O
  | Ping false :: t => S (failures t)
  | _ :: t => failures t
  end.

(** Total time spent in [time.sleep]. *)
Fixpoint time_slept (t : list event) : Z :=
  match t with
  | [] => 0
  | Sleep s :: t => (s + time_slept t)%Z
  | _ :: t => time_slept t
  end.

(** A trace made of failed rounds, each an attempt, a line and a sleep of
    5, followed by nothing or by one successful attempt and its line. *)
Fixpoint well_paced (t : list event) : bool :=
  match t with
  | [] => true
  | Ping false :: Print _ :: Sleep s :: t' => Z.eqb s 5 && well_paced t'
  | [Ping true; Print _] => true
  | _ => false
  end.

(** ** An instance of the identifier interface: 24 hexadecimal digits *)

Definition hex_digit (c : ascii) : option N :=
  let n := N_of_ascii c in
  if ((48 <=? n) && (n <=? 57))%N then Some (n - 48)%N
  else if ((97 <=? n) && (n <=? 102))%N then Some (n - 87)%N
  else if ((65 <=? n) && (n <=? 70))%N then Some (n - 55)%N
  else None.

Fixpoint hex_value (s : string) (acc : N) : option N :=
  match s with
  | EmptyString => Some acc
  | String c s' =>
      match hex_digit c with
      | Some d => hex_value s' (16 * acc + d)%N
      | None => None
      end
  end.

Definition hex_char (d : N) : ascii :=
  if (d <? 10)%N then ascii_of_N (48 + d) else ascii_of_N (87 + d).

Fixpoint hex_string (digits : nat) (n : N) (acc : string) : string :=
  match digits with
  | O => acc
  | S digits' => hex_string digits' (n / 16)%N (String (hex_char (n mod 16)%N) acc)
  end.

Definition invalid_id_msg (s : string) : string :=
  "'" ++ s ++ "' is not a valid ObjectId, it must be a 12-byte input or a 24-character hex string".

#[export] Instance hex_ObjectId : ObjectIdOps N := {|
  ObjectId_of_str s :=
    if Nat.eqb (String.length s) 24
    then match hex_value s 0 with
         | Some n => inr n
         | None => inl (invalid_id_msg s)
         end
    else inl (invalid_id_msg s);
  str_of_ObjectId n := hex_string 24 n EmptyString
|}.

(** Sample identifiers and requests for the examples. *)
Definition oid1 : N := 1.
Definition oid2 : N := 2.
Definition id1 : string := "000000000000000000000001".
Definition id2 : string := "000000000000000000000002".
Definition json_request (d : dict) : request := {| body := Some (JDict d) |}.
Definition milk : dict := [("task", JStr "buy milk"); ("completed", JBool false)].
Definition db1 : gmap N dict := <[oid1 := milk]> ∅.

(** A database that refuses the first [k] connection attempts. *)
Definition up_after (k : nat) (n : nat) : string + unit :=
  if Nat.ltb n k then inl "connection refused" else inr tt.

(** * Properties *)

(** ** Equality of JSON values *)

Lemma json_eqb_eq : forall x y : json, json_eqb x y = true <-> x = y.
Proof.
  fix IH 1.
  intros [| a | a | a | l | d] [| b | b | b | l' | d']; simpl;
    try (split; [discriminate | congruence]); try (split; reflexivity).
  - rewrite Bool.eqb_true_iff. split; congruence.
  - rewrite Z.eqb_eq. split; congruence.
  - rewrite String.eqb_eq. split; congruence.
  - revert l'. induction l as [| a l IHl]; intros [| b l']; simpl;
      try (split; [discriminate | congruence]); try (split; reflexivity).
    rewrite Bool.andb_true_iff, IH. specialize (IHl l').
    split.
    + intros [-> Hgo]. apply IHl in Hgo. congruence.
    + intros [= -> ->]. split; [reflexivity |]. apply IHl. reflexivity.
  - revert d'. induction d as [| [k a] d IHd]; intros [| [k' b] d']; simpl;
      try (split; [discriminate | congruence]); try (split; reflexivity).
    rewrite !Bool.andb_true_iff, String.eqb_eq, IH. specialize (IHd d').
    split.
    + intros [[-> ->] Hgo]. apply IHd in Hgo. congruence.
    + intros [= -> -> ->]. repeat split. apply IHd. reflexivity.
Qed.

Lemma dict_eqb_eq : forall d d' : dict, dict_eqb d d' = true <-> d = d'.
Proof.
  induction d as [| [k a] d IHd]; intros [| [k' b] d']; simpl;
    try (split; [discriminate | congruence]); try (split; reflexivity).
  rewrite !Bool.andb_true_iff, String.eqb_eq, json_eqb_eq, IHd.
  split; [intros [[-> ->] ->]; reflexivity | intros [= -> -> ->]; auto].
Qed.

Lemma dict_eqb_refl (d : dict) : dict_eqb d d = true.
Proof. apply dict_eqb_eq. reflexivity. Qed.


(** ** Dictionaries *)

Lemma dict_mem_get (k : string) (d : dict) :
  dict_mem k d = true <-> exists v, dict_get k d = Some v.
Proof.
  induction d as [| [k' v'] d IHd]; simpl.
  - split; [discriminate | intros [v Hv]; discriminate].
  - destruct (String.eqb k' k); simpl; [| exact IHd].
    split; [eauto | reflexivity].
Qed.

Lemma dict_mem_false_get (k : string) (d : dict) :
  dict_mem k d = false <-> dict_get k d = None.
Proof.
  induction d as [| [k' v'] d IHd]; simpl; [tauto |].
  destruct (String.eqb k' k); simpl; [| exact IHd].
  split; discriminate.
Qed.

Lemma dict_get_set_eq (k : string) (v : json) (d : dict) :
  dict_get k (dict_set k v d) = Some v.
Proof.
  induction d as [| [k' v'] d IHd]; simpl.
  - rewrite String.eqb_refl. reflexivity.
  - destruct (String.eqb k' k) eqn:E; simpl; rewrite E; auto.
Qed.

Lemma dict_get_set_ne (k k' : string) (v : json) (d : dict) :
  k <> k' -> dict_get k' (dict_set k v d) = dict_get k' d.
Proof.
  intros Hne. induction d as [| [k0 v0] d IHd]; simpl.
  - destruct (String.eqb k k') eqn:E; [apply String.eqb_eq in E; contradiction | reflexivity].
  - destruct (String.eqb k0 k) eqn:E; simpl.
    + apply String.eqb_eq in E. subst k0.
      destruct (String.eqb k k') eqn:E'; [apply String.eqb_eq in E'; contradiction | reflexivity].
    + rewrite IHd. reflexivity.
Qed.

Lemma dict_set_same (k : string) (v : json) (d : dict) :
  dict_get k d = Some v -> dict_set k v d = d.
Proof.
  induction d as [| [k' v'] d IHd]; simpl; [discriminate |].
  destruct (String.eqb k' k) eqn:E.
  - intros [= ->]. reflexivity.
  - intros Hg. rewrite IHd; auto.
Qed.

Lemma dict_keys_set_mem (k : string) (v : json) (d : dict) :
  dict_mem k d = true -> dict_keys (dict_set k v d) = dict_keys d.
Proof.
  unfold dict_keys. induction d as [| [k' v'] d IHd]; simpl; [discriminate |].
  destruct (String.eqb k' k) eqn:E; simpl; [reflexivity |].
  intros Hm. rewrite IHd; auto.
Qed.


Lemma dict_mem_keys (k : string) (d : dict) :
  dict_mem k d = true <-> In k (dict_keys d).
Proof.
  unfold dict_keys. induction d as [| [k' v'] d IHd]; simpl.
  - split; [discriminate | tauto].
  - rewrite Bool.orb_true_iff, String.eqb_eq, IHd. tauto.
Qed.

Lemma dict_mem_as_get (k : string) (d : dict) :
  dict_mem k d = match dict_get k d with Some _ => true | None => false end.
Proof.
  induction d as [| [k' v'] d IHd]; simpl; [reflexivity |].
  destruct (String.eqb k' k); simpl; auto.
Qed.

Lemma dict_mem_truthy (k : string) (d : dict) :
  dict_mem k d = true -> truthy (JDict d) = true.
Proof. destruct d; [discriminate | reflexivity]. Qed.

(** ** What the handlers compute from a JSON object *)

Lemma collect_update_fields_dict (d : dict) :
  collect_update_fields (JDict d) = inr (recognised_fields d).
Proof.
  unfold collect_update_fields, recognised_fields, py_in, py_getitem, bind_exn.
  rewrite !dict_mem_as_get.
  destruct (dict_get "task" d), (dict_get "completed" d); reflexivity.
Qed.

Lemma recognised_fields_truthy (d : dict) :
  dict_mem "task" d || dict_mem "completed" d = true ->
  truthy (JDict (recognised_fields d)) = true.
Proof.
  unfold recognised_fields. rewrite !dict_mem_as_get.
  destruct (dict_get "task" d), (dict_get "completed" d); simpl; auto.
Qed.

Lemma recognised_fields_empty (d : dict) :
  dict_mem "task" d || dict_mem "completed" d = false ->
  recognised_fields d = [].
Proof.
  unfold recognised_fields. rewrite !dict_mem_as_get.
  destruct (dict_get "task" d), (dict_get "completed" d); simpl; auto; discriminate.
Qed.

Lemma apply_set_recognised (d fields : dict) :
  apply_set (recognised_fields d) fields =
  match dict_get "completed" d with
  | Some c => dict_set "completed" c
  | None => fun f => f
  end (match dict_get "task" d with
       | Some t => dict_set "task" t fields
       | None => fields
       end).
Proof.
  unfold apply_set, recognised_fields.
  destruct (dict_get "task" d), (dict_get "completed" d); reflexivity.
Qed.

(** The value of a key after the [$set]: the supplied value when the body
    has the key and the key is recognised, the stored value otherwise. *)
Lemma dict_get_apply_set (d fields : dict) (k : string) :
  dict_get k (apply_set (recognised_fields d) fields) =
  if String.eqb k "task" || String.eqb k "completed"
  then match dict_get k d with
       | Some v => Some v
       | None => dict_get k fields
       end
  else dict_get k fields.
Proof.
  rewrite apply_set_recognised.
  destruct (String.eqb k "task") eqn:Et; [apply String.eqb_eq in Et; subst k |];
    [| destruct (String.eqb k "completed") eqn:Ec; [apply String.eqb_eq in Ec; subst k |]];
    simpl.
  - destruct (dict_get "completed" d) as [c |], (dict_get "task" d) as [t |];
      rewrite ?dict_get_set_ne by discriminate; rewrite ?dict_get_set_eq; reflexivity.
  - destruct (dict_get "completed" d) as [c |], (dict_get "task" d) as [t |];
      rewrite ?dict_get_set_eq; rewrite ?dict_get_set_ne by discriminate; reflexivity.
  - assert (Ht : "task" <> k) by (intros <-; discriminate).
    assert (Hc : "completed" <> k) by (intros <-; discriminate).
    destruct (dict_get "completed" d) as [c |], (dict_get "task" d) as [t |];
      rewrite ?dict_get_set_ne by assumption; reflexivity.
Qed.

Lemma apply_set_keys (d fields : dict) :
  dict_keys fields = ["task"; "completed"] ->
  dict_keys (apply_set (recognised_fields d) fields) = ["task"; "completed"].
Proof.
  intros Hk. rewrite apply_set_recognised.
  assert (Hstep : forall k v f, In k ["task"; "completed"] ->
            dict_keys f = ["task"; "completed"] ->
            dict_keys (dict_set k v f) = ["task"; "completed"]).
  { intros k v f Hin Hf. rewrite dict_keys_set_mem; [exact Hf |].
    apply dict_mem_keys. rewrite Hf. exact Hin. }
  destruct (dict_get "completed" d), (dict_get "task" d);
    repeat (apply Hstep; [simpl; tauto |]); exact Hk.
Qed.

Lemma apply_set_same (d fields : dict) :
  (forall v, dict_get "task" d = Some v -> dict_get "task" fields = Some v) ->
  (forall v, dict_get "completed" d = Some v -> dict_get "completed" fields = Some v) ->
  apply_set (recognised_fields d) fields = fields.
Proof.
  intros Ht Hc. rewrite apply_set_recognised.
  destruct (dict_get "task" d) as [t |].
  - rewrite (dict_set_same "task" t fields) by auto.
    destruct (dict_get "completed" d) as [c |]; [apply dict_set_same; auto | reflexivity].
  - destruct (dict_get "completed" d) as [c |]; [apply dict_set_same; auto | reflexivity].
Qed.

(** ** The handlers *)

Section ServiceProperties.
Context {ObjectId : Type} `{Countable ObjectId} `{!ObjectIdOps ObjectId}.

Implicit Types (db : gmap ObjectId dict) (oid fresh : ObjectId)
  (d fields : dict) (fault : option string) (todo_id : string).

Lemma new_ObjectId_ok todo_id oid :
  ObjectId_of_str todo_id = inr oid -> new_ObjectId todo_id = inr oid.
Proof. unfold new_ObjectId. intros ->. reflexivity. Qed.

Lemma new_ObjectId_invalid todo_id msg :
  ObjectId_of_str todo_id = inl msg -> new_ObjectId todo_id = inl (InvalidId msg).
Proof. unfold new_ObjectId. intros ->. reflexivity. Qed.

(** What [update_todo] does with a JSON object that has a recognised
    key, an identifier that parses and a driver that does not fail. *)
Lemma update_todo_dict todo_id oid d db :
  ObjectId_of_str todo_id = inr oid ->
  dict_mem "task" d || dict_mem "completed" d = true ->
  update_todo None todo_id (json_request d) db =
  match db !! oid with
  | None =>
      (Response (error_body "To-do item not found or no changes made") 404, db)
  | Some fields =>
      if dict_eqb (apply_set (recognised_fields d) fields) fields
      then (Response (error_body "To-do item not found or no changes made") 404, db)
      else (Response (message_body "To-do item updated successfully") 200,
            <[oid := apply_set (recognised_fields d) fields]> db)
  end.
Proof.
  intros Hid Hkeys. unfold update_todo, json_request, request_json. cbn [body].
  assert (Ht : truthy (JDict d) = true).
  { apply Bool.orb_true_iff in Hkeys as [Hk | Hk]; eapply dict_mem_truthy; eauto. }
  rewrite Ht, collect_update_fields_dict, (recognised_fields_truthy d Hkeys).
  cbn [negb]. rewrite (new_ObjectId_ok _ _ Hid).
  unfold bind_exn, update_one, driver_call.
  destruct (db !! oid) as [fields |]; [| reflexivity].
  destruct (dict_eqb _ fields); reflexivity.
Qed.

(** [C1] A PUT with a valid body and an identifier that parses, served
    without a driver failure, answers 404 with the same body and leaves
    the collection as it is both when no document has the identifier and
    when the document already holds every supplied value. *)
Theorem update_todo_noop_or_missing_404 todo_id oid d db :
  ObjectId_of_str todo_id = inr oid ->
  dict_mem "task" d || dict_mem "completed" d = true ->
  (db !! oid = None \/
   exists fields, db !! oid = Some fields /\
     (forall v, dict_get "task" d = Some v -> dict_get "task" fields = Some v) /\
     (forall v, dict_get "completed" d = Some v ->
                dict_get "completed" fields = Some v)) ->
  update_todo None todo_id (json_request d) db =
    (Response (error_body "To-do item not found or no changes made") 404, db).
Proof.
  intros Hid Hkeys Hcase. rewrite (update_todo_dict _ _ _ _ Hid Hkeys).
  destruct Hcase as [-> | (fields & -> & Ht & Hc)]; [reflexivity |].
  rewrite (apply_set_same d fields Ht Hc), dict_eqb_refl. reflexivity.
Qed.

(** What [create_todo] does with a JSON object that has the key [task]. *)
Lemma create_todo_dict fault fresh d task db :
  dict_get "task" d = Some task ->
  create_todo fault fresh (json_request d) db =
  match insert_one fault fresh [("task", task); ("completed", JBool false)] db with
  | inr (result, db') =>
      (Response (JDict [("id", JStr (str_of_ObjectId (inserted_id result)));
                        ("task", task); ("completed", JBool false)]) 201, db')
  | inl e => (Response (error_body (str_exn e)) 500, db)
  end.
Proof.
  intros Hget. unfold create_todo, json_request, request_json. cbn [body].
  assert (Hmem : dict_mem "task" d = true) by (apply dict_mem_get; eauto).
  rewrite (dict_mem_truthy _ _ Hmem). cbn [negb py_in py_getitem].
  rewrite Hmem, Hget. reflexivity.
Qed.

Lemma insert_one_ok fault fresh d db result db' :
  insert_one fault fresh d db = inr (result, db') ->
  fault = None /\ db !! fresh = None /\
  inserted_id result = fresh /\ db' = <[fresh := d]> db.
Proof.
  unfold insert_one, driver_call. destruct fault; [discriminate |].
  destruct (db !! fresh); [discriminate |]. intros [= <- <-]. auto.
Qed.

(** [C2] When the body is a JSON object with the key [task] and the
    insert succeeds, the response is 201 with [id], [task] and
    [completed = false], where [id] is the string form of the identifier
    that the store assigned, and the collection gains exactly the document
    with the supplied task and [completed = false] under that identifier:
    the identifier was free, the size grows by one, every other document
    is as before. *)
Theorem create_todo_inserts_one fault fresh d task db result db' :
  dict_get "task" d = Some task ->
  insert_one fault fresh [("task", task); ("completed", JBool false)] db
    = inr (result, db') ->
  create_todo fault fresh (json_request d) db =
    (Response (JDict [("id", JStr (str_of_ObjectId (inserted_id result)));
                      ("task", task); ("completed", JBool false)]) 201, db') /\
  db !! inserted_id result = None /\
  db' !! inserted_id result = Some [("task", task); ("completed", JBool false)] /\
  size db' = S (size db) /\
  (forall o, o <> inserted_id result -> db' !! o = db !! o).
Proof.
  intros Hget Hins. rewrite (create_todo_dict _ _ _ _ _ Hget), Hins.
  apply insert_one_ok in Hins as (_ & Hfree & -> & ->).
  split; [reflexivity |]. split; [exact Hfree |].
  split; [apply lookup_insert_eq |].
  split; [apply map_size_insert_None; exact Hfree |].
  intros o Hne. apply lookup_insert_ne. congruence.
Qed.

(** [C3], as the code has it: [create_todo] looks at the presence of the
    key only.  Every document that it adds has the key [task], and a
    request whose task is the empty string is accepted when the insert
    goes through: 201, and a document with the empty task is stored. *)
Theorem create_todo_checks_key_only fresh d db :
  dict_get "task" d = Some (JStr EmptyString) ->
  db !! fresh = None ->
  create_todo None fresh (json_request d) db =
    (Response (JDict [("id", JStr (str_of_ObjectId fresh));
                      ("task", JStr EmptyString); ("completed", JBool false)]) 201,
     <[fresh := [("task", JStr EmptyString); ("completed", JBool false)]]> db) /\
  (forall fault' fresh' req o fields,
      db !! o = None ->
      snd (create_todo fault' fresh' req db) !! o = Some fields ->
      dict_mem "task" fields = true).
Proof.
  intros Hget Hfree. split.
  - rewrite (create_todo_dict _ _ _ _ _ Hget).
    unfold insert_one, driver_call. rewrite Hfree. reflexivity.
  - intros fault' fresh' req o fields Ho.
    unfold create_todo.
    destruct (negb (truthy (request_json req))); [cbn; congruence |].
    destruct (py_in "task" (request_json req)) as [e | []]; try (cbn; congruence).
    destruct (py_getitem (request_json req) "task") as [e | task]; [cbn; congruence |].
    destruct (insert_one _ _ _ db) as [e | [result db']] eqn:Hins; [cbn; congruence |].
    apply insert_one_ok in Hins as (_ & _ & _ & ->). cbn [snd].
    destruct (decide (fresh' = o)) as [-> | Hne].
    + rewrite lookup_insert_eq. intros [= <-]. reflexivity.
    + rewrite lookup_insert_ne by exact Hne. congruence.
Qed.


Lemma remap_id_get oid fields k :
  dict_get k (remap_id (oid, fields)) =
  if String.eqb k "id" then Some (JStr (str_of_ObjectId oid)) else dict_get k fields.
Proof.
  unfold remap_id. cbn [fst snd].
  destruct (String.eqb k "id") eqn:E.
  - apply String.eqb_eq in E. subst k. apply dict_get_set_eq.
  - apply dict_get_set_ne. intros <-. rewrite String.eqb_refl in E. discriminate.
Qed.

(** [C6] For a GET by identifier: when the identifier parses and a
    document has it, the answer is 200 with that document, its [_id]
    replaced by the string [id]; when it parses and no document has it,
    the answer is 404; when it does not parse, the answer is 500 with the
    text of the exception, whatever the driver does.  The first two cases
    are for a driver call that does not fail.  The collection is never
    changed. *)
Theorem get_todo_status todo_id db :
  (forall oid fields,
      ObjectId_of_str todo_id = inr oid -> db !! oid = Some fields ->
      get_todo None todo_id db = (Response (JDict (remap_id (oid, fields))) 200, db) /\
      dict_get "id" (remap_id (oid, fields)) = Some (JStr (str_of_ObjectId oid)) /\
      (forall k, k <> "id" -> dict_get k (remap_id (oid, fields)) = dict_get k fields)) /\
  (forall oid,
      ObjectId_of_str todo_id = inr oid -> db !! oid = None ->
      get_todo None todo_id db = (Response (error_body "To-do item not found") 404, db)) /\
  (forall fault msg,
      ObjectId_of_str todo_id = inl msg ->
      get_todo fault todo_id db = (Response (error_body msg) 500, db)).
Proof.
  unfold get_todo, bind_exn, find_one, driver_call. split; [| split].
  - intros oid fields Hid Hget. split; [| split].
    + rewrite (new_ObjectId_ok _ _ Hid), Hget. reflexivity.
    + rewrite remap_id_get. reflexivity.
    + intros k Hk. rewrite remap_id_get.
      destruct (String.eqb k "id") eqn:E;
        [apply String.eqb_eq in E; contradiction | reflexivity].
  - intros oid Hid Hnone. rewrite (new_ObjectId_ok _ _ Hid), Hnone. reflexivity.
  - intros fault msg Hid. rewrite (new_ObjectId_invalid _ _ Hid). reflexivity.
Qed.

Lemma delete_todo_found todo_id oid fields db :
  ObjectId_of_str todo_id = inr oid -> db !! oid = Some fields ->
  delete_todo None todo_id db =
    (Response (message_body "To-do item deleted successfully") 200, delete oid db).
Proof.
  intros Hid Hget. unfold delete_todo, bind_exn, delete_one, driver_call.
  rewrite (new_ObjectId_ok _ _ Hid), Hget. reflexivity.
Qed.

Lemma delete_todo_missing todo_id oid db :
  ObjectId_of_str todo_id = inr oid -> db !! oid = None ->
  delete_todo None todo_id db = (Response (error_body "To-do item not found") 404, db).
Proof.
  intros Hid Hget. unfold delete_todo, bind_exn, delete_one, driver_call.
  rewrite (new_ObjectId_ok _ _ Hid), Hget. reflexivity.
Qed.

(** [C7] For a DELETE with an identifier that parses, served without a
    driver failure: when a document has the identifier it is removed (and
    no other document is touched) and the answer is 200 with the
    confirmation message; otherwise the answer is 404 and nothing
    changes.  In both cases a second DELETE of the same identifier
    answers 404. *)
Theorem delete_todo_idempotent todo_id oid db :
  ObjectId_of_str todo_id = inr oid ->
  (forall fields, db !! oid = Some fields ->
     delete_todo None todo_id db =
       (Response (message_body "To-do item deleted successfully") 200, delete oid db) /\
     delete oid db !! oid = None /\
     (forall o, o <> oid -> delete oid db !! o = db !! o)) /\
  (db !! oid = None ->
     delete_todo None todo_id db =
       (Response (error_body "To-do item not found") 404, db)) /\
  fst (delete_todo None todo_id (snd (delete_todo None todo_id db))) =
    Response (error_body "To-do item not found") 404.
Proof.
  intros Hid. split; [| split].
  - intros fields Hget. split; [eapply delete_todo_found; eauto |].
    split; [apply lookup_delete_eq |].
    intros o Hne. apply lookup_delete_ne. congruence.
  - apply delete_todo_missing. exact Hid.
  - destruct (db !! oid) as [fields |] eqn:Hget.
    + rewrite (delete_todo_found _ _ _ _ Hid Hget). cbn [snd].
      rewrite (delete_todo_missing _ _ _ Hid); [reflexivity | apply lookup_delete_eq].
    + rewrite (delete_todo_missing _ _ _ Hid Hget). cbn [snd].
      rewrite (delete_todo_missing _ _ _ Hid Hget). reflexivity.
Qed.

(** ** The effect of an update *)

Lemma request_json_dict req d :
  request_json req = JDict d -> body req = Some (JDict d).
Proof.
  unfold request_json. destruct (body req); [intros -> | discriminate]. reflexivity.
Qed.

(** Only a JSON object gives a non-empty [update_fields]. *)
Lemma collect_update_fields_inv data update_fields :
  collect_update_fields data = inr update_fields ->
  truthy (JDict update_fields) = true ->
  exists d, data = JDict d /\ update_fields = recognised_fields d.
Proof.
  destruct data as [| b | z | s | l | d]; try discriminate.
  - unfold collect_update_fields, py_in, py_getitem, bind_exn.
    destruct (str_contains "task" s); [discriminate |].
    destruct (str_contains "completed" s); [discriminate |].
    intros [= <-]. discriminate.
  - unfold collect_update_fields, py_in, py_getitem, bind_exn.
    destruct (existsb (is_str "task") l); [discriminate |].
    destruct (existsb (is_str "completed") l); [discriminate |].
    intros [= <-]. discriminate.
  - rewrite collect_update_fields_dict. intros [= <-] _. eauto.
Qed.

(** [update_todo] either leaves the collection as it is, or replaces the
    fields of the document named by [todo_id] by the result of the
    [$set]. *)
Lemma update_todo_effect fault todo_id req db :
  snd (update_todo fault todo_id req db) = db \/
  exists oid d fields,
    ObjectId_of_str todo_id = inr oid /\ body req = Some (JDict d) /\
    db !! oid = Some fields /\
    snd (update_todo fault todo_id req db) =
      <[oid := apply_set (recognised_fields d) fields]> db.
Proof.
  unfold update_todo.
  destruct (negb (truthy (request_json req))); [left; reflexivity |].
  destruct (collect_update_fields (request_json req)) as [e | uf] eqn:Hc;
    [left; reflexivity |].
  destruct (truthy (JDict uf)) eqn:Hu; cbn [negb]; [| left; reflexivity].
  destruct (collect_update_fields_inv _ _ Hc Hu) as (d & Hd & ->).
  unfold new_ObjectId, bind_exn.
  destruct (ObjectId_of_str todo_id) as [msg | oid] eqn:Hid; [left; reflexivity |].
  unfold update_one, driver_call. destruct fault; [left; reflexivity |].
  destruct (db !! oid) as [fields |] eqn:Hget; [| left; reflexivity].
  destruct (dict_eqb _ fields); cbn; [left; reflexivity |].
  right. exists oid, d, fields. auto using request_json_dict.
Qed.

(** [C8] Whatever the request and whatever the driver does, an update
    keeps every document under its identifier (no identifier appears or
    disappears), and in every document each key that the body does not
    supply, and each key other than [task] and [completed], keeps its
    value; a document other than the one named by [todo_id] is not
    changed at all.  In particular a body without [task] leaves the
    stored task as it was. *)
Theorem update_todo_frame fault todo_id req db o fields :
  db !! o = Some fields ->
  exists fields',
    snd (update_todo fault todo_id req db) !! o = Some fields' /\
    (forall k, (forall d, body req = Some (JDict d) -> dict_mem k d = false) ->
               dict_get k fields' = dict_get k fields) /\
    (forall d, body req = Some (JDict d) -> dict_mem "task" d = false ->
               dict_get "task" fields' = dict_get "task" fields) /\
    (forall k, k <> "task" -> k <> "completed" ->
               dict_get k fields' = dict_get k fields) /\
    (ObjectId_of_str todo_id <> inr o -> fields' = fields) /\
    dom (snd (update_todo fault todo_id req db)) = dom db.
Proof.
  intros Hget.
  destruct (update_todo_effect fault todo_id req db)
    as [-> | (oid & d & old & Hid & Hbody & Hold & ->)].
  { exists fields. repeat split; auto. }
  assert (Hdom : dom (<[oid := apply_set (recognised_fields d) old]> db) = dom db).
  { apply dom_insert_lookup_L. eauto. }
  destruct (decide (oid = o)) as [-> | Hne].
  - assert (old = fields) by congruence. subst old.
    exists (apply_set (recognised_fields d) fields).
    split; [apply lookup_insert_eq |].
    split; [| split; [| split; [| split]]].
    + intros k Hk. rewrite dict_get_apply_set.
      specialize (Hk d Hbody). apply dict_mem_false_get in Hk. rewrite Hk.
      destruct (_ || _); reflexivity.
    + intros d' Hbody' Hk. assert (d' = d) by congruence. subst d'.
      rewrite dict_get_apply_set. apply dict_mem_false_get in Hk. rewrite Hk.
      reflexivity.
    + intros k Ht Hc. rewrite dict_get_apply_set.
      destruct (String.eqb k "task") eqn:Et; [apply String.eqb_eq in Et; contradiction |].
      destruct (String.eqb k "completed") eqn:Ec; [apply String.eqb_eq in Ec; contradiction |].
      reflexivity.
    + intros Hid'. contradiction.
    + exact Hdom.
  - exists fields.
    split; [rewrite lookup_insert_ne by exact Hne; exact Hget |].
    repeat split; auto.
Qed.


(** ** The shape of the stored documents is an invariant *)

(** [create_todo] either changes nothing and does not answer 201, or
    answers 201 and adds one document under the fresh identifier. *)
Lemma create_todo_cases fault fresh req db :
  (created (fst (create_todo fault fresh req db)) = false /\
   snd (create_todo fault fresh req db) = db) \/
  (exists task,
      created (fst (create_todo fault fresh req db)) = true /\
      db !! fresh = None /\
      snd (create_todo fault fresh req db) =
        <[fresh := [("task", task); ("completed", JBool false)]]> db).
Proof.
  unfold create_todo.
  destruct (negb (truthy (request_json req))); [left; split; reflexivity |].
  destruct (py_in "task" (request_json req)) as [e | []];
    try (left; split; reflexivity).
  destruct (py_getitem (request_json req) "task") as [e | task];
    [left; split; reflexivity |].
  destruct (insert_one _ _ _ db) as [e | [result db']] eqn:Hins;
    [left; split; reflexivity |].
  apply insert_one_ok in Hins as (_ & Hfree & _ & ->).
  right. exists task. auto.
Qed.

Lemma delete_todo_effect fault todo_id db :
  snd (delete_todo fault todo_id db) = db \/
  exists oid, snd (delete_todo fault todo_id db) = delete oid db.
Proof.
  unfold delete_todo, new_ObjectId, bind_exn, delete_one, driver_call.
  destruct (ObjectId_of_str todo_id) as [msg | oid]; [left; reflexivity |].
  destruct fault; [left; reflexivity |].
  destruct (db !! oid); [right; exists oid |left]; reflexivity.
Qed.

Lemma get_todo_reads fault todo_id db : snd (get_todo fault todo_id db) = db.
Proof.
  unfold get_todo. destruct (let* oid := _ in _) as [e | [todo |]]; reflexivity.
Qed.

Lemma get_all_todos_reads fault db : snd (get_all_todos fault db) = db.
Proof. unfold get_all_todos. destruct (find_all fault db); reflexivity. Qed.

Lemma well_formed_empty : well_formed (∅ : gmap ObjectId dict).
Proof. apply map_Forall_empty. Qed.

(** Every handler keeps the documents in the shape that [create_todo]
    gives them. *)
Lemma handle_well_formed c db :
  well_formed db -> well_formed (snd (handle c db)).
Proof.
  intros Hwf. destruct c as [fault fresh req | fault | fault i | fault i req | fault i];
    cbn [handle].
  - destruct (create_todo_cases fault fresh req db) as [[_ ->] | (task & _ & _ & ->)];
      [exact Hwf |].
    apply map_Forall_insert_2; [reflexivity | exact Hwf].
  - rewrite get_all_todos_reads. exact Hwf.
  - rewrite get_todo_reads. exact Hwf.
  - destruct (update_todo_effect fault i req db)
      as [-> | (oid & d & old & _ & _ & Hold & ->)]; [exact Hwf |].
    apply map_Forall_insert_2; [| exact Hwf].
    apply apply_set_keys. exact (Hwf _ _ Hold).
  - destruct (delete_todo_effect fault i db) as [-> | [oid ->]]; [exact Hwf |].
    apply map_Forall_delete. exact Hwf.
Qed.

Lemma run_well_formed calls db :
  well_formed db -> well_formed (snd (run calls db)).
Proof.
  revert db. induction calls as [| c calls IH]; intros db Hwf; cbn [run snd];
    [exact Hwf |].
  apply IH, handle_well_formed, Hwf.
Qed.

(** After a run of successful creates the collection has one more
    document per request. *)
Lemma run_creates_size calls db :
  forallb is_create calls = true ->
  forallb created (fst (run calls db)) = true ->
  size (snd (run calls db)) = size db + length calls.
Proof.
  revert db. induction calls as [| c calls IH]; intros db Hc Hok; cbn [run fst snd] in *.
  - cbn. lia.
  - cbn [forallb] in Hc, Hok.
    apply Bool.andb_true_iff in Hc as [Hc1 Hc2].
    apply Bool.andb_true_iff in Hok as [Hok1 Hok2].
    rewrite (IH _ Hc2 Hok2). destruct c; try discriminate. cbn [handle] in *.
    destruct (create_todo_cases fault fresh req db)
      as [[Hno _] | (task & _ & Hfree & ->)]; [congruence |].
    rewrite (map_size_insert_None _ _ _ Hfree). cbn [length]. lia.
Qed.

Lemma todo_shaped_inv fields :
  todo_shaped fields ->
  exists task completed, fields = [("task", task); ("completed", completed)].
Proof.
  unfold todo_shaped, dict_keys.
  destruct fields as [| [k1 v1] [| [k2 v2] [| ? ?]]]; try discriminate.
  cbn. intros [= -> ->]. eauto.
Qed.

Lemma get_all_todos_ok db :
  get_all_todos None db =
    (Response (JList (map (fun todo => JDict (remap_id todo)) (map_to_list db))) 200, db).
Proof. reflexivity. Qed.

Lemma get_all_todos_records db :
  well_formed db ->
  forall r, In r (map (fun todo => JDict (remap_id todo)) (map_to_list db)) ->
            exists o fields, db !! o = Some fields /\ external_record (o, fields) r.
Proof.
  intros Hwf r Hr. apply in_map_iff in Hr as ([o fields] & <- & Hin).
  apply list_elem_of_In, elem_of_map_to_list in Hin.
  exists o, fields. split; [exact Hin |].
  destruct (todo_shaped_inv fields (Hwf _ _ Hin)) as (task & completed & ->).
  exists task, completed. split; reflexivity.
Qed.

Lemma run_from_empty_well_formed calls : well_formed (snd (run calls ∅)).
Proof. apply run_well_formed, well_formed_empty. Qed.

(** [C9] For every collection and a driver that does not fail, the listing
    is 200 with one record per document: the number of records is the
    number of documents, and the records are the documents of the
    collection, each with its [_id] replaced by the string [id].  When the
    documents have the shape that the service writes, every record is made
    of exactly [task], [completed] and [id].  After N creates that were
    answered 201 on the empty collection, the listing has N records, all
    of them of that form. *)
Theorem get_all_todos_lists_collection db :
  exists records,
    get_all_todos None db = (Response (JList records) 200, db) /\
    length records = size db /\
    (forall o fields, db !! o = Some fields ->
                      In (JDict (remap_id (o, fields))) records) /\
    (forall r, In r records ->
               exists o fields, db !! o = Some fields /\ r = JDict (remap_id (o, fields))) /\
    (well_formed db ->
     forall r, In r records ->
               exists o fields, db !! o = Some fields /\ external_record (o, fields) r) /\
    (forall calls,
        forallb is_create calls = true ->
        forallb created (fst (run calls ∅)) = true ->
        exists records',
          fst (get_all_todos None (snd (run calls ∅))) = Response (JList records') 200 /\
          length records' = length calls /\
          (forall r, In r records' ->
                     exists o fields, snd (run calls ∅) !! o = Some fields /\
                                      external_record (o, fields) r)).
Proof.
  exists (map (fun todo => JDict (remap_id todo)) (map_to_list db)).
  split; [apply get_all_todos_ok |].
  split; [rewrite length_map; apply length_map_to_list |].
  split; [| split; [| split]].
  - intros o fields Hget. apply in_map_iff. exists (o, fields).
    split; [reflexivity |]. apply list_elem_of_In, elem_of_map_to_list. exact Hget.
  - intros r Hr. apply in_map_iff in Hr as ([o fields] & <- & Hin).
    apply list_elem_of_In, elem_of_map_to_list in Hin. eauto.
  - apply get_all_todos_records.
  - intros calls Hc Hok. eexists. rewrite get_all_todos_ok. cbn [fst].
    split; [reflexivity |]. split.
    + rewrite length_map, length_map_to_list, (run_creates_size _ _ Hc Hok), map_size_empty.
      reflexivity.
    + apply get_all_todos_records, run_from_empty_well_formed.
Qed.

(** ** Further checks of the request contract *)

(** A PUT whose JSON object has neither [task] nor [completed] is answered
    400 and changes nothing. *)
Lemma update_todo_no_fields_400 fault todo_id d db :
  dict_mem "task" d || dict_mem "completed" d = false ->
  status_of (fst (update_todo fault todo_id (json_request d) db)) = Some 400%Z /\
  snd (update_todo fault todo_id (json_request d) db) = db.
Proof.
  intros Hkeys. unfold update_todo, json_request, request_json. cbn [body].
  destruct (negb (truthy (JDict d))); [split; reflexivity |].
  rewrite collect_update_fields_dict, (recognised_fields_empty d Hkeys).
  split; reflexivity.
Qed.

(** The liveness probe answers 200 and does not look at the store. *)
Lemma health_check_ok : status_of health_check = Some 200%Z.
Proof. reflexivity. Qed.

(** A body that is a JSON number passes [not data] and makes the test
    ['task' in data] raise outside the [try]. *)
Lemma create_todo_number_body fault fresh z db :
  z <> 0%Z ->
  create_todo fault fresh {| body := Some (JInt z) |} db =
    (Unhandled (TypeError "argument of type 'int' is not iterable"), db).
Proof.
  intros Hz. unfold create_todo, request_json. cbn [body truthy].
  destruct (Z.eqb_spec z 0); [contradiction | reflexivity].
Qed.

End ServiceProperties.

(** ** Start-up *)

Section InitDbProperties.
Context {MongoClient : Type}.
Variable attempt : nat -> string + MongoClient.

Lemma init_db_loop_paced retries n :
  well_paced (snd (init_db_loop attempt retries n)) = true.
Proof.
  revert n. induction retries as [| r IH]; intros n; cbn [init_db_loop];
    [reflexivity |].
  destruct (attempt n) as [e | client]; [| reflexivity].
  cbn [snd well_paced]. rewrite IH. reflexivity.
Qed.

Lemma init_db_loop_counts retries n :
  attempts (snd (init_db_loop attempt retries n)) <= retries /\
  failures (snd (init_db_loop attempt retries n)) <= retries /\
  time_slept (snd (init_db_loop attempt retries n)) =
    (5 * Z.of_nat (failures (snd (init_db_loop attempt retries n))))%Z.
Proof.
  revert n. induction retries as [| r IH]; intros n; cbn [init_db_loop].
  - cbn. repeat split; lia.
  - destruct (attempt n) as [e | client].
    + destruct (IH (S n)) as (Ha & Hf & Ht).
      cbn [snd attempts failures time_slept]. rewrite Ht. repeat split; lia.
    + cbn. repeat split; lia.
Qed.

Lemma init_db_loop_all_fail retries n :
  (forall j, j < retries -> fails attempt (n + j)) ->
  fst (init_db_loop attempt retries n) = inl gave_up_msg /\
  attempts (snd (init_db_loop attempt retries n)) = retries /\
  failures (snd (init_db_loop attempt retries n)) = retries.
Proof.
  revert n. induction retries as [| r IH]; intros n Hall; cbn [init_db_loop].
  - repeat split.
  - destruct (Hall 0) as [e He]; [lia |]. rewrite Nat.add_0_r in He. rewrite He.
    destruct (IH (S n)) as (Hr & Ha & Hf).
    { intros j Hj. replace (S n + j) with (n + S j) by lia. apply Hall. lia. }
    cbn [fst snd attempts failures]. rewrite Hr, Ha, Hf. repeat split.
Qed.

Lemma init_db_loop_first_success retries n k client :
  k < retries ->
  (forall j, j < k -> fails attempt (n + j)) ->
  attempt (n + k) = inr client ->
  fst (init_db_loop attempt retries n) = inr client /\
  exists t,
    snd (init_db_loop attempt retries n) = (t ++ [Ping true; Print connected_msg])%list /\
    attempts t = k /\ failures t = k /\ time_slept t = (5 * Z.of_nat k)%Z.
Proof.
  revert n k. induction retries as [| r IH]; intros n k Hk Hbefore Hok; [lia |].
  cbn [init_db_loop]. destruct k as [| k].
  - rewrite Nat.add_0_r in Hok. rewrite Hok. split; [reflexivity |].
    exists []. repeat split.
  - destruct (Hbefore 0) as [e He]; [lia |]. rewrite Nat.add_0_r in He. rewrite He.
    destruct (IH (S n) k) as (Hr & t & Ht & Ha & Hf & Hs).
    + lia.
    + intros j Hj. replace (S n + j) with (n + S j) by lia. apply Hbefore. lia.
    + replace (S n + k) with (n + S k) by lia. exact Hok.
    + cbn [fst snd]. split; [exact Hr |].
      exists (Ping false :: Print (not_ready_msg e) :: Sleep 5 :: t).
      rewrite Ht. cbn [attempts failures time_slept]. rewrite Ha, Hf, Hs.
      repeat split. lia.
Qed.

(** [C5] [init_db] makes at most 10 connection attempts; its trace is a
    sequence of failed rounds, each followed by a sleep of 5, ended by
    nothing or by the one successful attempt, so the time slept is 5 per
    failed attempt and at most 50.  When the first 10 attempts all fail
    it raises, after 10 attempts and 50 slept.  When attempt [k], [k]
    below 10, is the first to succeed it returns that client, and the
    successful attempt and its message are the last events: nothing is
    slept after it. *)
Theorem init_db_bounded_retry :
  attempts (snd (init_db attempt)) <= 10 /\
  well_paced (snd (init_db attempt)) = true /\
  time_slept (snd (init_db attempt)) =
    (5 * Z.of_nat (failures (snd (init_db attempt))))%Z /\
  (time_slept (snd (init_db attempt)) <= 50)%Z /\
  ((forall j, j < 10 -> fails attempt j) ->
     fst (init_db attempt) = inl gave_up_msg /\
     attempts (snd (init_db attempt)) = 10 /\
     time_slept (snd (init_db attempt)) = 50%Z) /\
  (forall k client,
      k < 10 -> (forall j, j < k -> fails attempt j) -> attempt k = inr client ->
      fst (init_db attempt) = inr client /\
      exists t,
        snd (init_db attempt) = (t ++ [Ping true; Print connected_msg])%list /\
        attempts t = k /\ time_slept t = (5 * Z.of_nat k)%Z).
Proof.
  unfold init_db.
  destruct (init_db_loop_counts 10 0) as (Ha & Hf & Ht).
  split; [exact Ha |]. split; [apply init_db_loop_paced |].
  split; [exact Ht |]. split; [lia |]. split.
  - intros Hall. destruct (init_db_loop_all_fail 10 0 Hall) as (Hr & Ha' & Hf').
    rewrite Ht, Hf'. repeat split; auto.
  - intros k client Hk Hbefore Hok.
    destruct (init_db_loop_first_success 10 0 k client Hk Hbefore Hok)
      as (Hr & t & Hsnd & Ha' & _ & Hs).
    split; [exact Hr |]. exists t. auto.
Qed.

End InitDbProperties.

(** ** The properties at concrete requests *)

Lemma db1_well_formed : well_formed db1.
Proof. apply map_Forall_insert_2; [reflexivity | apply map_Forall_empty]. Qed.

Lemma update_todo_noop_or_missing_404_witness :
  update_todo None id1 (json_request [("completed", JBool false)]) db1 =
    (Response (error_body "To-do item not found or no changes made") 404, db1) /\
  update_todo None id2 (json_request [("completed", JBool false)]) db1 =
    (Response (error_body "To-do item not found or no changes made") 404, db1).
Proof.
  split.
  - apply (update_todo_noop_or_missing_404 id1 oid1); [reflexivity | reflexivity |].
    right. exists milk. split; [reflexivity |].
    split; intros v Hv; [discriminate Hv | exact Hv].
  - apply (update_todo_noop_or_missing_404 id2 oid2); [reflexivity | reflexivity |].
    left. reflexivity.
Defined.

Lemma create_todo_inserts_one_witness :
  create_todo None oid2 (json_request [("task", JStr "walk dog")]) db1 =
    (Response (JDict [("id", JStr id2); ("task", JStr "walk dog");
                      ("completed", JBool false)]) 201,
     <[oid2 := [("task", JStr "walk dog"); ("completed", JBool false)]]> db1).
Proof.
  destruct (create_todo_inserts_one None oid2 [("task", JStr "walk dog")]
              (JStr "walk dog") db1 {| inserted_id := oid2 |}
              (<[oid2 := [("task", JStr "walk dog"); ("completed", JBool false)]]> db1))
    as [Hresp _]; [reflexivity | reflexivity |].
  exact Hresp.
Defined.

(** On the empty collection, a create request whose task is the empty
    string is answered 201 and the document with the empty task is
    stored. *)
Lemma create_todo_empty_task_accepted :
  fst (create_todo None oid1 (json_request [("task", JStr EmptyString)]) ∅) =
    Response (JDict [("id", JStr id1); ("task", JStr EmptyString);
                     ("completed", JBool false)]) 201 /\
  snd (create_todo None oid1 (json_request [("task", JStr EmptyString)]) ∅) !! oid1 =
    Some [("task", JStr EmptyString); ("completed", JBool false)].
Proof. split; reflexivity. Qed.

Lemma create_todo_checks_key_only_witness :
  create_todo None oid2 (json_request [("task", JStr EmptyString)]) db1 =
    (Response (JDict [("id", JStr id2); ("task", JStr EmptyString);
                      ("completed", JBool false)]) 201,
     <[oid2 := [("task", JStr EmptyString); ("completed", JBool false)]]> db1).
Proof.
  destruct (create_todo_checks_key_only oid2 [("task", JStr EmptyString)] db1)
    as [Hresp _]; [reflexivity | reflexivity |].
  exact Hresp.
Defined.


Lemma init_db_bounded_retry_witness :
  fst (init_db (up_after 2)) = inr tt /\
  exists t,
    snd (init_db (up_after 2)) = (t ++ [Ping true; Print connected_msg])%list /\
    attempts t = 2 /\ time_slept t = 10%Z.
Proof.
  apply (init_db_bounded_retry (up_after 2)); [lia | | reflexivity].
  intros j Hj. exists "connection refused".
  destruct j as [| [| j]]; [reflexivity | reflexivity | lia].
Defined.

Lemma get_todo_status_witness :
  get_todo None id1 db1 =
    (Response (JDict [("task", JStr "buy milk"); ("completed", JBool false);
                      ("id", JStr id1)]) 200, db1) /\
  get_todo None id2 db1 = (Response (error_body "To-do item not found") 404, db1) /\
  get_todo None "42" db1 = (Response (error_body (invalid_id_msg "42")) 500, db1).
Proof.
  split; [| split].
  - destruct (proj1 (get_todo_status id1 db1) oid1 milk) as [Hresp _];
      [reflexivity | reflexivity | exact Hresp].
  - apply (proj1 (proj2 (get_todo_status id2 db1)) oid2); reflexivity.
  - apply (proj2 (proj2 (get_todo_status "42" db1)) None (invalid_id_msg "42")).
    reflexivity.
Defined.

Lemma delete_todo_idempotent_witness :
  delete_todo None id1 db1 =
    (Response (message_body "To-do item deleted successfully") 200, delete oid1 db1) /\
  fst (delete_todo None id1 (snd (delete_todo None id1 db1))) =
    Response (error_body "To-do item not found") 404.
Proof.
  destruct (delete_todo_idempotent id1 oid1 db1) as (Hfound & _ & Hagain);
    [reflexivity |].
  split; [| exact Hagain].
  apply (Hfound milk). reflexivity.
Defined.

Lemma update_todo_frame_witness :
  exists fields',
    snd (update_todo None id1 (json_request [("completed", JBool true)]) db1) !! oid1
      = Some fields' /\
    dict_get "task" fields' = Some (JStr "buy milk").
Proof.
  destruct (update_todo_frame None id1 (json_request [("completed", JBool true)])
              db1 oid1 milk) as (fields' & Hget & _ & Htask & _); [reflexivity |].
  exists fields'. split; [exact Hget |].
  apply (Htask [("completed", JBool true)]); reflexivity.
Defined.

Lemma get_all_todos_lists_collection_witness :
  exists records,
    get_all_todos None db1 = (Response (JList records) 200, db1) /\
    length records = 1 /\
    (forall r, In r records ->
               exists o fields, db1 !! o = Some fields /\ external_record (o, fields) r).
Proof.
  destruct (get_all_todos_lists_collection db1)
    as (records & Hresp & Hlen & _ & _ & Hshape & _).
  exists records. split; [exact Hresp |]. split; [exact Hlen |].
  apply Hshape, db1_well_formed.
Defined.


(** * Further properties of the handlers *)

Section HandlerContract.
Context {ObjectId : Type} `{Countable ObjectId} `{!ObjectIdOps ObjectId}.

Implicit Types (db : gmap ObjectId dict) (oid fresh : ObjectId)
  (d fields : dict) (fault : option string) (todo_id : string).

(** What [update_todo] does with a JSON object that has a recognised key,
    for every identifier and every behaviour of the driver. *)
Lemma update_todo_object fault todo_id d db :
  dict_mem "task" d || dict_mem "completed" d = true ->
  update_todo fault todo_id (json_request d) db =
  match (let* oid := new_ObjectId todo_id in
         update_one fault oid (recognised_fields d) db) with
  | inr (result, db') =>
      if Z.eqb (modified_count result) 0
      then (Response (error_body "To-do item not found or no changes made") 404, db')
      else (Response (message_body "To-do item updated successfully") 200, db')
  | inl e => (Response (error_body (str_exn e)) 500, db)
  end.
Proof.
  intros Hkeys. unfold update_todo, json_request, request_json. cbn [body].
  assert (Ht : truthy (JDict d) = true).
  { apply Bool.orb_true_iff in Hkeys as [Hk | Hk]; eapply dict_mem_truthy; eauto. }
  rewrite Ht, collect_update_fields_dict, (recognised_fields_truthy d Hkeys).
  reflexivity.
Qed.



(** An identifier that does not parse is answered 500 with the text of
    [InvalidId] by delete and by an update whose body has a recognised
    key, whatever the driver would do: the store is not called. *)
Theorem malformed_id_gives_500 fault todo_id msg db :
  ObjectId_of_str todo_id = inl msg ->
  delete_todo fault todo_id db = (Response (error_body msg) 500, db) /\
  (forall d,
      dict_mem "task" d || dict_mem "completed" d = true ->
      update_todo fault todo_id (json_request d) db =
        (Response (error_body msg) 500, db)).
Proof.
  intros Hid. split.
  - unfold delete_todo, bind_exn. rewrite (new_ObjectId_invalid _ _ Hid). reflexivity.
  - intros d Hkeys. rewrite (update_todo_object _ _ _ _ Hkeys).
    unfold bind_exn. rewrite (new_ObjectId_invalid _ _ Hid). reflexivity.
Qed.

(** Get, the listing and delete run entirely inside their [try]: they
    always answer with a response, 200 or 500 for the listing and 200, 404
    or 500 for get and delete, and get and the listing never change the
    collection. *)
Theorem read_and_delete_always_respond fault todo_id db :
  (status_of (fst (get_all_todos fault db)) = Some 200%Z \/
   status_of (fst (get_all_todos fault db)) = Some 500%Z) /\
  (status_of (fst (get_todo fault todo_id db)) = Some 200%Z \/
   status_of (fst (get_todo fault todo_id db)) = Some 404%Z \/
   status_of (fst (get_todo fault todo_id db)) = Some 500%Z) /\
  (status_of (fst (delete_todo fault todo_id db)) = Some 200%Z \/
   status_of (fst (delete_todo fault todo_id db)) = Some 404%Z \/
   status_of (fst (delete_todo fault todo_id db)) = Some 500%Z) /\
  snd (get_all_todos fault db) = db /\
  snd (get_todo fault todo_id db) = db.
Proof.
  split; [| split; [| split; [| split]]].
  - unfold get_all_todos. destruct (find_all fault db); cbn; auto.
  - unfold get_todo. destruct (let* oid := _ in _) as [e | [todo |]]; cbn; auto.
  - unfold delete_todo. destruct (let* oid := _ in _) as [e | [result db']]; cbn; auto.
    destruct (Z.eqb _ 0); cbn; auto.
  - apply get_all_todos_reads.
  - apply get_todo_reads.
Qed.

(** A body that is JSON but not an object never reaches the store: create
    and update answer 400, or the test [in] or the subscript raises
    [TypeError] outside the [try]; the collection is unchanged. *)
Theorem non_object_body_never_stored fault fresh todo_id v db :
  (forall d, v <> JDict d) ->
  (fst (create_todo fault fresh {| body := Some v |} db) =
     Response (error_body missing_task_msg) 400 \/
   exists m, fst (create_todo fault fresh {| body := Some v |} db) =
               Unhandled (TypeError m)) /\
  snd (create_todo fault fresh {| body := Some v |} db) = db /\
  (status_of (fst (update_todo fault todo_id {| body := Some v |} db)) = Some 400%Z \/
   exists m, fst (update_todo fault todo_id {| body := Some v |} db) =
               Unhandled (TypeError m)) /\
  snd (update_todo fault todo_id {| body := Some v |} db) = db.
Proof.
  intros Hv. unfold create_todo, update_todo, request_json. cbn [body].
  destruct v as [| b | z | s | l | d].
  - cbn. repeat split; auto.
  - destruct b; cbn; repeat split; eauto.
  - cbn [truthy]. destruct (Z.eqb z 0); cbn; repeat split; eauto.
  - destruct (negb (truthy (JStr s))); [cbn; repeat split; auto |].
    unfold collect_update_fields, py_in, py_getitem, bind_exn.
    destruct (str_contains "task" s), (str_contains "completed" s); cbn;
      repeat split; eauto.
  - destruct (negb (truthy (JList l))); [cbn; repeat split; auto |].
    unfold collect_update_fields, py_in, py_getitem, bind_exn.
    destruct (existsb (is_str "task") l), (existsb (is_str "completed") l);
      cbn; repeat split; eauto.
  - exfalso. exact (Hv d eq_refl).
Qed.

(** ** How the operations compose *)

(** A todo that was created can be fetched under the [id] of the create
    response, provided the identifier reads back from its string form: the
    get answers 200 with the task of the request and [completed = false]. *)
Theorem create_then_get fresh d task db :
  dict_get "task" d = Some task ->
  db !! fresh = None ->
  ObjectId_of_str (str_of_ObjectId fresh) = inr fresh ->
  exists id db',
    create_todo None fresh (json_request d) db =
      (Response (JDict [("id", JStr id); ("task", task);
                        ("completed", JBool false)]) 201, db') /\
    get_todo None id db' =
      (Response (JDict [("task", task); ("completed", JBool false);
                        ("id", JStr id)]) 200, db').
Proof.
  intros Hget Hfree Hback.
  exists (str_of_ObjectId fresh),
         (<[fresh := [("task", task); ("completed", JBool false)]]> db).
  split.
  - rewrite (create_todo_dict _ _ _ _ _ Hget).
    unfold insert_one, driver_call. rewrite Hfree. reflexivity.
  - unfold get_todo, bind_exn, find_one, driver_call.
    rewrite (new_ObjectId_ok _ _ Hback), lookup_insert_eq. reflexivity.
Qed.

(** After a PUT with a recognised key on an existing document, whether it
    was answered 200 or 404, a get of the same identifier answers 200 with
    the supplied values; every other key is as stored before, and [id] is
    the string form of the identifier. *)
Theorem update_then_get todo_id oid d fields db :
  ObjectId_of_str todo_id = inr oid ->
  db !! oid = Some fields ->
  dict_mem "task" d || dict_mem "completed" d = true ->
  exists record,
    fst (get_todo None todo_id (snd (update_todo None todo_id (json_request d) db))) =
      Response (JDict record) 200 /\
    (forall v, dict_get "task" d = Some v -> dict_get "task" record = Some v) /\
    (forall v, dict_get "completed" d = Some v ->
               dict_get "completed" record = Some v) /\
    (forall k, k <> "id" -> dict_get k d = None ->
               dict_get k record = dict_get k fields) /\
    dict_get "id" record = Some (JStr (str_of_ObjectId oid)).
Proof.
  intros Hid Hget Hkeys.
  exists (remap_id (oid, apply_set (recognised_fields d) fields)).
  split.
  - rewrite (update_todo_dict _ _ _ _ Hid Hkeys), Hget.
    unfold get_todo, bind_exn, find_one, driver_call.
    rewrite (new_ObjectId_ok _ _ Hid).
    destruct (dict_eqb _ fields) eqn:E; cbn [snd].
    + apply dict_eqb_eq in E. rewrite Hget, E. reflexivity.
    + rewrite lookup_insert_eq. reflexivity.
  - split; [| split; [| split]].
    + intros v Hv. rewrite remap_id_get, dict_get_apply_set, Hv. reflexivity.
    + intros v Hv. rewrite remap_id_get, dict_get_apply_set, Hv. reflexivity.
    + intros k Hk Hnone. rewrite remap_id_get, dict_get_apply_set, Hnone.
      destruct (String.eqb k "id") eqn:E;
        [apply String.eqb_eq in E; contradiction |].
      destruct (String.eqb k "task" || String.eqb k "completed"); reflexivity.
    + rewrite remap_id_get. reflexivity.
Qed.

(** After a delete with an identifier that parses, a get of the same
    identifier answers 404, whether or not the document existed. *)
Theorem delete_then_get todo_id oid db :
  ObjectId_of_str todo_id = inr oid ->
  fst (get_todo None todo_id (snd (delete_todo None todo_id db))) =
    Response (error_body "To-do item not found") 404.
Proof.
  intros Hid.
  assert (Hgone : snd (delete_todo None todo_id db) !! oid = None).
  { destruct (db !! oid) as [fields |] eqn:Hget.
    - rewrite (delete_todo_found _ _ _ _ Hid Hget). apply lookup_delete_eq.
    - rewrite (delete_todo_missing _ _ _ Hid Hget). exact Hget. }
  unfold get_todo, bind_exn, find_one, driver_call.
  rewrite (new_ObjectId_ok _ _ Hid), Hgone. reflexivity.
Qed.

Lemma supplied_value_cases (k : string) d fields :
  (forall v, dict_get k d = Some v -> dict_get k fields = Some v) \/
  (exists v, dict_get k d = Some v /\ dict_get k fields <> Some v).
Proof.
  destruct (dict_get k d) as [v |]; [| left; discriminate].
  destruct (dict_get k fields) as [v' |].
  - destruct (json_eqb v' v) eqn:E.
    + apply json_eqb_eq in E. subst v'. left. intros v0 [= <-]. reflexivity.
    + right. exists v. split; [reflexivity |]. intros [= ->].
      assert (json_eqb v v = true) by (apply json_eqb_eq; reflexivity). congruence.
  - right. exists v. split; [reflexivity | discriminate].
Qed.

(** With a recognised key in the body, an identifier that parses and a
    driver that does not fail, a PUT is answered 200 exactly when the
    document exists and the body supplies, for [task] or for [completed],
    a value other than the stored one. *)
Theorem update_todo_200_iff_changed todo_id oid d db :
  ObjectId_of_str todo_id = inr oid ->
  dict_mem "task" d || dict_mem "completed" d = true ->
  (fst (update_todo None todo_id (json_request d) db) =
     Response (message_body "To-do item updated successfully") 200 <->
   exists fields,
     db !! oid = Some fields /\
     ((exists v, dict_get "task" d = Some v /\ dict_get "task" fields <> Some v) \/
      (exists v, dict_get "completed" d = Some v /\
                 dict_get "completed" fields <> Some v))).
Proof.
  intros Hid Hkeys. rewrite (update_todo_dict _ _ _ _ Hid Hkeys).
  destruct (db !! oid) as [fields |] eqn:Hget.
  - destruct (dict_eqb _ fields) eqn:E; cbn [fst].
    + apply dict_eqb_eq in E. split; [discriminate |].
      intros (fields' & [= <-] & [(v & Hv & Hne) | (v & Hv & Hne)]); exfalso;
        apply Hne; rewrite <- E, dict_get_apply_set, Hv; reflexivity.
    + split; [intros _ | reflexivity]. exists fields. split; [reflexivity |].
      destruct (supplied_value_cases "task" d fields) as [Ht | Ht]; [| left; exact Ht].
      destruct (supplied_value_cases "completed" d fields) as [Hc | Hc];
        [| right; exact Hc].
      rewrite (apply_set_same d fields Ht Hc), dict_eqb_refl in E. discriminate.
  - cbn [fst]. split; [discriminate | intros (fields & [=] & _)].
Qed.

(** With an identifier that parses and a driver that does not fail, a
    delete is answered 200 exactly when the document exists; the
    collection then has one document fewer, and is unchanged otherwise. *)
Theorem delete_todo_200_iff_present todo_id oid db :
  ObjectId_of_str todo_id = inr oid ->
  (fst (delete_todo None todo_id db) =
     Response (message_body "To-do item deleted successfully") 200 <->
   is_Some (db !! oid)) /\
  (is_Some (db !! oid) -> S (size (snd (delete_todo None todo_id db))) = size db) /\
  (db !! oid = None -> snd (delete_todo None todo_id db) = db).
Proof.
  intros Hid. destruct (db !! oid) as [fields |] eqn:Hget.
  - rewrite (delete_todo_found _ _ _ _ Hid Hget). cbn [fst snd].
    split; [split; eauto |]. split; [| discriminate].
    intros _. rewrite <- (insert_delete_id db oid fields Hget) at 2.
    symmetry. apply map_size_insert_None, lookup_delete_eq.
  - rewrite (delete_todo_missing _ _ _ Hid Hget). cbn [fst snd].
    split; [split; [discriminate | intros [x Hx]; discriminate] |].
    split; [intros [x Hx]; discriminate | reflexivity].
Qed.


(** A request changes at most one document: of two different identifiers,
    one has after the request what it had before. *)
Theorem handle_touches_one_document (c : call) db (o1 o2 : ObjectId) :
  o1 <> o2 ->
  snd (handle c db) !! o1 = db !! o1 \/ snd (handle c db) !! o2 = db !! o2.
Proof.
  intros Hne.
  assert (Hins : forall k (x : dict),
             <[k := x]> db !! o1 = db !! o1 \/ <[k := x]> db !! o2 = db !! o2).
  { intros k x. destruct (decide (k = o1)) as [-> | Hk].
    - right. apply lookup_insert_ne. exact Hne.
    - left. apply lookup_insert_ne. exact Hk. }
  destruct c as [fault fresh req | fault | fault i | fault i req | fault i];
    cbn [handle].
  - destruct (create_todo_cases fault fresh req db) as [[_ ->] | (task & _ & _ & ->)];
      auto.
  - rewrite get_all_todos_reads. auto.
  - rewrite get_todo_reads. auto.
  - destruct (update_todo_effect fault i req db)
      as [-> | (oid & d & old & _ & _ & _ & ->)]; auto.
  - destruct (delete_todo_effect fault i db) as [-> | [oid ->]]; [auto |].
    destruct (decide (oid = o1)) as [-> | Hk].
    + right. apply lookup_delete_ne. exact Hne.
    + left. apply lookup_delete_ne. exact Hk.
Qed.

(** Whatever requests are served from the empty collection, every stored
    document consists of exactly the keys [task] and [completed]: no
    request adds another key or removes one of the two. *)
Theorem stored_documents_keep_shape (calls : list call) (o : ObjectId) fields :
  snd (run calls ∅) !! o = Some fields ->
  exists task completed, fields = [("task", task); ("completed", completed)].
Proof.
  intros Hget. apply todo_shaped_inv.
  exact (run_well_formed calls ∅ well_formed_empty o fields Hget).
Qed.

(** After a create that was answered 201 the listing contains the created
    record, under the [id] of the response, and still contains every
    record that it contained before. *)
Theorem create_then_list fault fresh d task db result db' :
  dict_get "task" d = Some task ->
  insert_one fault fresh [("task", task); ("completed", JBool false)] db
    = inr (result, db') ->
  exists records records',
    fst (get_all_todos None db) = Response (JList records) 200 /\
    fst (get_all_todos None (snd (create_todo fault fresh (json_request d) db))) =
      Response (JList records') 200 /\
    In (JDict [("task", task); ("completed", JBool false);
               ("id", JStr (str_of_ObjectId (inserted_id result)))]) records' /\
    (forall r, In r records -> In r records') /\
    length records' = S (length records).
Proof.
  intros Hget Hins. rewrite (create_todo_dict _ _ _ _ _ Hget), Hins. cbn [snd].
  apply insert_one_ok in Hins as (_ & Hfree & -> & ->).
  exists (map (fun todo => JDict (remap_id todo)) (map_to_list db)).
  eexists. rewrite !get_all_todos_ok. cbn [fst].
  split; [reflexivity |]. split; [reflexivity |]. split; [| split].
  - apply in_map_iff.
    exists (fresh, [("task", task); ("completed", JBool false)]).
    split; [reflexivity |].
    apply list_elem_of_In, elem_of_map_to_list, lookup_insert_eq.
  - intros r Hr. apply in_map_iff in Hr as ([o fields] & <- & Hin).
    apply in_map_iff. exists (o, fields). split; [reflexivity |].
    apply list_elem_of_In, elem_of_map_to_list.
    apply list_elem_of_In, elem_of_map_to_list in Hin.
    rewrite lookup_insert_ne; [exact Hin | congruence].
  - rewrite !length_map, !length_map_to_list.
    apply map_size_insert_None. exact Hfree.
Qed.

End HandlerContract.

(** ** Further properties of the start-up *)

Section InitDbContract.
Context {MongoClient : Type}.

Lemma init_db_loop_ext (a b : nat -> string + MongoClient) retries n :
  (forall j, j < retries -> a (n + j) = b (n + j)) ->
  init_db_loop a retries n = init_db_loop b retries n.
Proof.
  revert n. induction retries as [| r IH]; intros n Hab; cbn [init_db_loop];
    [reflexivity |].
  assert (Hn : a n = b n).
  { specialize (Hab 0). rewrite Nat.add_0_r in Hab. apply Hab. lia. }
  rewrite <- Hn.
  destruct (a n) as [e | client]; [| reflexivity].
  rewrite (IH (S n)); [reflexivity |].
  intros j Hj. replace (S n + j) with (n + S j) by lia. apply Hab. lia.
Qed.

(** [init_db] never looks at an eleventh attempt: two databases that
    behave alike on the first ten attempts give the same result and the
    same events. *)
Theorem init_db_ignores_later_attempts (a b : nat -> string + MongoClient) :
  (forall n, n < 10 -> a n = b n) ->
  init_db a = init_db b.
Proof. intros Hab. apply init_db_loop_ext. intros j Hj. apply Hab. exact Hj. Qed.

Lemma init_db_loop_raises (attempt : nat -> string + MongoClient) retries n msg :
  fst (init_db_loop attempt retries n) = inl msg ->
  forall j, j < retries -> fails attempt (n + j).
Proof.
  revert n. induction retries as [| r IH]; intros n Hres j Hj; [lia |].
  cbn [init_db_loop] in Hres.
  destruct (attempt n) as [e | client] eqn:Hn; [| discriminate].
  destruct j as [| j].
  - rewrite Nat.add_0_r. exists e. exact Hn.
  - replace (n + S j) with (S n + j) by lia. apply (IH (S n) Hres). lia.
Qed.

(** [init_db] raises exactly when each of the first ten attempts fails, and
    the exception is then the one with the fixed text; a single success
    among the ten makes it return a client. *)
Theorem init_db_raises_iff_all_fail (attempt : nat -> string + MongoClient) :
  ((exists msg, fst (init_db attempt) = inl msg) <->
   (forall j, j < 10 -> fails attempt j)) /\
  (forall msg, fst (init_db attempt) = inl msg -> msg = gave_up_msg).
Proof.
  unfold init_db. split; [split |].
  - intros [msg Hres] j Hj. exact (init_db_loop_raises attempt 10 0 msg Hres j Hj).
  - intros Hall. exists gave_up_msg.
    apply (init_db_loop_all_fail attempt 10 0). exact Hall.
  - intros msg Hres.
    destruct (init_db_loop_all_fail attempt 10 0) as [Hr _].
    + exact (init_db_loop_raises attempt 10 0 msg Hres).
    + congruence.
Qed.

End InitDbContract.

(** ** The further properties at concrete requests *)



Lemma malformed_id_gives_500_witness :
  delete_todo None "42" db1 = (Response (error_body (invalid_id_msg "42")) 500, db1) /\
  update_todo None "42" (json_request [("completed", JBool true)]) db1 =
    (Response (error_body (invalid_id_msg "42")) 500, db1).
Proof.
  destruct (malformed_id_gives_500 None "42" (invalid_id_msg "42") db1)
    as [Hdelete Hupdate]; [reflexivity |].
  split; [exact Hdelete | apply Hupdate; reflexivity].
Defined.

Lemma non_object_body_never_stored_witness :
  (exists m, fst (create_todo None oid2 {| body := Some (JList [JStr "task"]) |} db1) =
               Unhandled (TypeError m)) /\
  snd (create_todo None oid2 {| body := Some (JList [JStr "task"]) |} db1) = db1.
Proof.
  assert (Hlist : forall d, JList [JStr "task"] <> JDict d) by discriminate.
  destruct (non_object_body_never_stored None oid2 id1 (JList [JStr "task"]) db1 Hlist)
    as ([H400 | Hraise] & Hsame & _); [discriminate H400 |].
  split; [exact Hraise | exact Hsame].
Defined.

Lemma create_then_get_witness :
  exists id db',
    create_todo None oid2 (json_request [("task", JStr "walk dog")]) db1 =
      (Response (JDict [("id", JStr id); ("task", JStr "walk dog");
                        ("completed", JBool false)]) 201, db') /\
    get_todo None id db' =
      (Response (JDict [("task", JStr "walk dog"); ("completed", JBool false);
                        ("id", JStr id)]) 200, db').
Proof.
  apply (create_then_get oid2 [("task", JStr "walk dog")] (JStr "walk dog") db1);
    reflexivity.
Defined.

Lemma update_then_get_witness :
  exists record,
    fst (get_todo None id1
           (snd (update_todo None id1 (json_request [("completed", JBool true)]) db1))) =
      Response (JDict record) 200 /\
    dict_get "completed" record = Some (JBool true) /\
    dict_get "task" record = Some (JStr "buy milk").
Proof.
  destruct (update_then_get id1 oid1 [("completed", JBool true)] milk db1)
    as (record & Hresp & _ & Hc & Hother & _); [reflexivity | reflexivity | reflexivity |].
  exists record. split; [exact Hresp |]. split.
  - apply Hc. reflexivity.
  - rewrite (Hother "task"); [reflexivity | discriminate | reflexivity].
Defined.

Lemma delete_then_get_witness :
  fst (get_todo None id1 (snd (delete_todo None id1 db1))) =
    Response (error_body "To-do item not found") 404.
Proof. apply (delete_then_get id1 oid1 db1). reflexivity. Defined.

Lemma update_todo_200_iff_changed_witness :
  fst (update_todo None id1 (json_request [("completed", JBool true)]) db1) =
    Response (message_body "To-do item updated successfully") 200.
Proof.
  apply (update_todo_200_iff_changed id1 oid1 [("completed", JBool true)] db1);
    [reflexivity | reflexivity |].
  exists milk. split; [reflexivity |]. right.
  exists (JBool true). split; [reflexivity | discriminate].
Defined.

Lemma delete_todo_200_iff_present_witness :
  fst (delete_todo None id1 db1) =
    Response (message_body "To-do item deleted successfully") 200 /\
  S (size (snd (delete_todo None id1 db1))) = size db1.
Proof.
  destruct (delete_todo_200_iff_present id1 oid1 db1) as (Hiff & Hsize & _);
    [reflexivity |].
  split; [apply Hiff | apply Hsize]; exists milk; reflexivity.
Defined.


Lemma handle_touches_one_document_witness :
  snd (handle (Delete None id1) db1) !! oid1 = db1 !! oid1 \/
  snd (handle (Delete None id1) db1) !! oid2 = db1 !! oid2.
Proof. apply (handle_touches_one_document (Delete None id1) db1 oid1 oid2). discriminate. Defined.

Lemma stored_documents_keep_shape_witness :
  snd (run [Create None oid1 (json_request [("task", JStr "x"); ("note", JStr "n")]);
            Update None id1 (json_request [("completed", JInt 3); ("note", JStr "m")])]
           (∅ : gmap N dict)) !! oid1 =
    Some [("task", JStr "x"); ("completed", JInt 3)] /\
  exists task completed,
    [("task", JStr "x"); ("completed", JInt 3)] =
    [("task", task); ("completed", completed)].
Proof.
  split; [reflexivity |].
  apply (stored_documents_keep_shape
           [Create None oid1 (json_request [("task", JStr "x"); ("note", JStr "n")]);
            Update None id1 (json_request [("completed", JInt 3); ("note", JStr "m")])]
           oid1).
  reflexivity.
Defined.

Lemma create_then_list_witness :
  exists records records',
    fst (get_all_todos None db1) = Response (JList records) 200 /\
    fst (get_all_todos None
           (snd (create_todo None oid2 (json_request [("task", JStr "walk dog")]) db1))) =
      Response (JList records') 200 /\
    length records' = S (length records).
Proof.
  destruct (create_then_list None oid2 [("task", JStr "walk dog")] (JStr "walk dog")
              db1 {| inserted_id := oid2 |}
              (<[oid2 := [("task", JStr "walk dog"); ("completed", JBool false)]]> db1))
    as (records & records' & H1 & H2 & _ & _ & Hlen); [reflexivity | reflexivity |].
  exists records, records'. auto.
Defined.

Lemma init_db_ignores_later_attempts_witness :
  init_db (up_after 10) = init_db (up_after 12) /\
  fst (init_db (up_after 10)) = inl gave_up_msg.
Proof.
  split; [| reflexivity].
  apply (init_db_ignores_later_attempts (up_after 10) (up_after 12)).
  intros n Hn. unfold up_after.
  destruct (Nat.ltb_spec n 10), (Nat.ltb_spec n 12); try reflexivity; lia.
Defined.

Lemma init_db_raises_iff_all_fail_witness :
  (exists msg, fst (init_db (up_after 10)) = inl msg) /\
  ~ (forall j, j < 10 -> fails (up_after 3) j).
Proof.
  split.
  - apply (proj1 (init_db_raises_iff_all_fail (up_after 10))).
    intros j Hj. exists "connection refused". unfold up_after.
    destruct (Nat.ltb_spec j 10); [reflexivity | lia].
  - intros Hall.
    apply (proj1 (init_db_raises_iff_all_fail (up_after 3))) in Hall.
    destruct Hall as [msg Hmsg]. discriminate Hmsg.
Defined.
